(** * RN-Installer: the React Native environment installer (src/index.js)

    A shallow embedding of the script's single class, [ReactNativeInstaller],
    and of the console helpers around it.  The script is a sequence of
    external command invocations, console lines, one interactive question
    per platform procedure and two kinds of termination (a raised error that
    [execute] catches, and [process.exit]).  The embedding keeps all of them:
    the host machine is an explicit world threaded through every call, and
    every run yields an outcome together with the ordered trace of what it
    did. *)

From Stdlib Require Import String Ascii List ZArith Bool PeanoNat.
Import ListNotations.
Local Open Scope string_scope.

(** ** Strings *)

(** [String.prototype.toLowerCase], on the bytes of the string: the letters
    [A]..[Z] are mapped to [a]..[z]; every other byte, in particular every
    byte of a non-ASCII character, is left as it is. *)
Definition toLowerCase_ascii (c : ascii) : ascii :=
  let n := nat_of_ascii c in
  if (65 <=? n)%nat && (n <=? 90)%nat then ascii_of_nat (n + 32) else c.

Fixpoint toLowerCase (s : string) : string :=
  match s with
  | EmptyString => EmptyString
  | String c s' => String (toLowerCase_ascii c) (toLowerCase s')
  end.

(** The escape character [\x1b], the line feed [\n] and the double quote of
    the source's string literals. *)
Definition esc : string := String (ascii_of_nat 27) EmptyString.
Definition lf : string := String (ascii_of_nat 10) EmptyString.
Definition dq : string := String (ascii_of_nat 34) EmptyString.

(** ** Console colours (the [colors] object) *)

Module colors.
Definition reset : string := esc ++ "[0m".
Definition green : string := esc ++ "[32m".
Definition red : string := esc ++ "[31m".
Definition yellow : string := esc ++ "[33m".
Definition cyan : string := esc ++ "[36m".
End colors.

(** ** What a run can do and how it can end *)

(** The [stdio] option handed to [execSync]. *)
Inductive stdio : Type :=
| ignore
| inherit.

(** The error object raised by [execSync]; only its [message] is read. *)
Record Error : Type := mkError { message : string }.

(** [execSync] either returns or raises. *)
Inductive result : Type :=
| Succeeded
| Failed (error : Error).

(** The methods of [ReactNativeInstaller]. *)
Inductive method : Type :=
| m_execute
| m_checkCommand
| m_checkPrerequisites
| m_checkNodeJS
| m_installReactNativeCLI
| m_setupMacOS
| m_setupLinux
| m_setupWindows
| m_printNextSteps
| m_question.

(** One observable step of a run.  [Call] is bookkeeping: a method records
    that it was entered, so that "procedure so-and-so is (not) invoked" can be
    stated on the trace.  The other three are the script's effects:
    a [console.log] line, an [execSync] with its command, [stdio] option and
    result, and an [rl.question] with its prompt and the line that came back
    ([None] when no line ever arrives). *)
Inductive event : Type :=
| Call (m : method)
| Log (line : string)
| Exec (command : string) (io : stdio) (r : result)
| Ask (query : string) (answer : option string).

(** How a computation ends: it returns a value, raises an error, terminates
    the process through [process.exit], or stays suspended on a question that
    is never answered. *)
Inductive outcome (A : Type) : Type :=
| Returned (a : A)
| Thrown (error : Error)
| Exited (code : Z)
| Pending.

Arguments Returned {A} a.
Arguments Thrown {A} error.
Arguments Exited {A} code.
Arguments Pending {A}.

(** The [ReactNativeInstaller] object: its constructor stores
    [process.platform]. *)
Record ReactNativeInstaller : Type := mkInstaller { platform : string }.

(** The host machine.  [spawnSync command w] is what running [command] does
    to the machine in state [w]: whether it succeeds, and the state
    afterwards.  [readLine query w] is the line the user enters at the
    prompt, if any. *)
Record Host : Type := mkHost {
  World : Type;
  spawnSync : string -> World -> result * World;
  readLine : string -> World -> option string * World
}.

Section Installer.

Variable host : Host.

(** The outcome of a run, the machine state it leaves and its trace. *)
Record run (A : Type) : Type := mkRun {
  out : outcome A;
  world : World host;
  trace : list event
}.

Arguments mkRun {A} out world trace.
Arguments out {A} r.
Arguments world {A} r.
Arguments trace {A} r.

Definition M (A : Type) : Type := World host -> run A.

Definition ret {A} (a : A) : M A :=
  fun w => mkRun (Returned a) w [].

Definition bind {A B} (m : M A) (k : A -> M B) : M B :=
  fun w =>
    match m w with
    | mkRun (Returned a) w1 t1 =>
        match k a w1 with
        | mkRun o w2 t2 => mkRun o w2 (t1 ++ t2)
        end
    | mkRun (Thrown e) w1 t1 => mkRun (Thrown e) w1 t1
    | mkRun (Exited c) w1 t1 => mkRun (Exited c) w1 t1
    | mkRun Pending w1 t1 => mkRun Pending w1 t1
    end.

(** [try { m } catch (error) { h error }]: only a raised error reaches the
    handler; [process.exit] inside [m] does not. *)
Definition try_catch {A} (m : M A) (h : Error -> M A) : M A :=
  fun w =>
    match m w with
    | mkRun (Thrown e) w1 t1 =>
        match h e w1 with
        | mkRun o w2 t2 => mkRun o w2 (t1 ++ t2)
        end
    | r => r
    end.

Definition emit (e : event) : M unit :=
  fun w => mkRun (Returned tt) w [e].

Definition enter (m : method) : M unit := emit (Call m).

Notation "x <- m ;; k" := (bind m (fun x => k))
  (at level 61, m at next level, right associativity).
Notation "m ;; k" := (bind m (fun _ => k))
  (at level 61, right associativity).

(** *** Primitives of the runtime *)

Definition console_log (line : string) : M unit := emit (Log line).

Definition process_exit {A} (code : Z) : M A :=
  fun w => mkRun (Exited code) w [].

Definition execSync (command : string) (io : stdio) : M unit :=
  fun w =>
    let (r, w') := spawnSync host command w in
    match r with
    | Succeeded => mkRun (Returned tt) w' [Exec command io Succeeded]
    | Failed e => mkRun (Thrown e) w' [Exec command io (Failed e)]
    end.

(** *** Console helpers *)

Definition printStep (message : string) : M unit :=
  console_log (colors.cyan ++ "[STEP]" ++ colors.reset ++ " " ++ message).

Definition printSuccess (message : string) : M unit :=
  console_log (colors.green ++ "[SUCCESS]" ++ colors.reset ++ " " ++ message).

Definition printError (message : string) : M unit :=
  console_log (colors.red ++ "[ERROR]" ++ colors.reset ++ " " ++ message).

Definition printWarning (message : string) : M unit :=
  console_log (colors.yellow ++ "[WARNING]" ++ colors.reset ++ " " ++ message).

(** *** The methods *)

Definition checkCommand (this : ReactNativeInstaller) (command : string)
  : M bool :=
  enter m_checkCommand ;;
  try_catch
    (execSync (command ++ " --version") ignore ;;
     ret true)
    (fun _ => ret false).

Definition checkPrerequisites (this : ReactNativeInstaller) : M unit :=
  enter m_checkPrerequisites ;;
  printStep "Checking prerequisites..." ;;
  git <- checkCommand this "git" ;;
  (if negb git then
     printWarning
       "Git is not installed. Please install Git and run this script again." ;;
     process_exit 1
   else ret tt) ;;
  printSuccess "Prerequisites check complete.".

Definition checkNodeJS (this : ReactNativeInstaller) : M unit :=
  enter m_checkNodeJS ;;
  printStep "Checking Node.js installation..." ;;
  node <- checkCommand this "node" ;;
  if negb node then
    printStep "Node.js not found. Installing using NVM..." ;;
    if platform this =? "win32" then
      printWarning "Please install Node.js from https://nodejs.org/" ;;
      process_exit 1
    else
      execSync
        "curl -o- https://raw.githubusercontent.com/nvm-sh/nvm/v0.39.0/install.sh | bash"
        inherit ;;
      execSync "source ~/.bashrc && nvm install --lts" inherit
  else
    printSuccess "Node.js is already installed.".

Definition installReactNativeCLI (this : ReactNativeInstaller) : M unit :=
  enter m_installReactNativeCLI ;;
  printStep "Installing React Native CLI..." ;;
  execSync "npm install -g react-native-cli" inherit ;;
  printSuccess "React Native CLI installed successfully.".

Definition question (this : ReactNativeInstaller) (query : string)
  : M string :=
  enter m_question ;;
  fun w =>
    let (line, w') := readLine host query w in
    match line with
    | Some answer => mkRun (Returned answer) w' [Ask query (Some answer)]
    | None => mkRun Pending w' [Ask query None]
    end.

Definition setupMacOS (this : ReactNativeInstaller) : M unit :=
  enter m_setupMacOS ;;
  printStep "Setting up macOS development environment..." ;;
  brew <- checkCommand this "brew" ;;
  (if negb brew then
     printStep "Installing Homebrew..." ;;
     execSync
       ("/bin/bash -c " ++ dq
          ++ "$(curl -fsSL https://raw.githubusercontent.com/Homebrew/install/HEAD/install.sh)"
          ++ dq)
       inherit
   else ret tt) ;;
  printStep "Installing watchman..." ;;
  execSync "brew install watchman" inherit ;;
  xcode <- checkCommand this "xcode-select" ;;
  (if negb xcode then
     printWarning
       "Xcode is not installed. Please install Xcode from the App Store."
   else ret tt) ;;
  printStep "Installing Java Development Kit..." ;;
  execSync "brew install adoptopenjdk/openjdk/adoptopenjdk11" inherit ;;
  answer <- question this "Would you like to download Android Studio? (y/n): " ;;
  (if toLowerCase answer =? "y" then
     execSync "open https://developer.android.com/studio" inherit ;;
     printWarning
       "Please complete Android Studio installation and setup Android SDK manually."
   else ret tt) ;;
  printSuccess "macOS development environment setup complete.".

Definition setupLinux (this : ReactNativeInstaller) : M unit :=
  enter m_setupLinux ;;
  printStep "Setting up Linux development environment..." ;;
  printStep "Installing Java Development Kit..." ;;
  execSync "sudo apt-get update" inherit ;;
  execSync "sudo apt-get install -y openjdk-11-jdk" inherit ;;
  printStep "Installing additional dependencies..." ;;
  execSync "sudo apt-get install -y android-tools-adb android-tools-fastboot"
    inherit ;;
  answer <- question this "Would you like to download Android Studio? (y/n): " ;;
  (if toLowerCase answer =? "y" then
     execSync "xdg-open https://developer.android.com/studio" inherit ;;
     printWarning
       "Please complete Android Studio installation and setup Android SDK manually."
   else ret tt) ;;
  printSuccess "Linux development environment setup complete.".

Definition setupWindows (this : ReactNativeInstaller) : M unit :=
  enter m_setupWindows ;;
  printStep "Setting up Windows development environment..." ;;
  choco <- checkCommand this "choco" ;;
  (if negb choco then
     printStep "Installing Chocolatey..." ;;
     execSync
       "powershell Set-ExecutionPolicy Bypass -Scope Process -Force; [System.Net.ServicePointManager]::SecurityProtocol = [System.Net.ServicePointManager]::SecurityProtocol -bor 3072; iex ((New-Object System.Net.WebClient).DownloadString('https://chocolatey.org/install.ps1'))"
       inherit
   else ret tt) ;;
  printStep "Installing Java Development Kit..." ;;
  execSync "choco install -y openjdk11" inherit ;;
  answer <- question this "Would you like to download Android Studio? (y/n): " ;;
  (if toLowerCase answer =? "y" then
     execSync "start https://developer.android.com/studio" inherit ;;
     printWarning
       "Please complete Android Studio installation and setup Android SDK manually."
   else ret tt) ;;
  printSuccess "Windows development environment setup complete.".

Definition printNextSteps (this : ReactNativeInstaller) : M unit :=
  enter m_printNextSteps ;;
  console_log (lf ++ "ðŸ“‹ Next Steps:") ;;
  console_log "1. Configure Android Studio and install Android SDK" ;;
  console_log "2. Set ANDROID_HOME environment variable" ;;
  console_log "3. Add platform-tools to PATH" ;;
  console_log ("4. Run " ++ dq ++ "react-native doctor" ++ dq
                 ++ " to verify your installation") ;;
  console_log ("5. Create your first app: " ++ dq
                 ++ "npx react-native init MyApp" ++ dq).

Definition execute (this : ReactNativeInstaller) : M unit :=
  enter m_execute ;;
  console_log
    (colors.cyan ++ "React Native Environment Setup" ++ colors.reset) ;;
  console_log "----------------------------" ;;
  console_log ("Detected platform: " ++ platform this ++ lf) ;;
  try_catch
    (checkPrerequisites this ;;
     checkNodeJS this ;;
     installReactNativeCLI this ;;
     (if platform this =? "darwin" then setupMacOS this
      else if platform this =? "linux" then setupLinux this
      else if platform this =? "win32" then setupWindows this
      else ret tt) ;;
     printSuccess "React Native environment setup completed successfully!" ;;
     printNextSteps this)
    (fun error =>
       printError ("Installation failed: " ++ message error) ;;
       process_exit 1).

End Installer.

Arguments mkRun {host A} out world trace.
Arguments out {host A} r.
Arguments world {host A} r.
Arguments trace {host A} r.
Arguments ret {host A} a w.
Arguments bind {host A B} m k w.
Arguments try_catch {host A} m h w.

Notation "x <- m ;; k" := (bind m (fun x => k))
  (at level 61, m at next level, right associativity).
Notation "m ;; k" := (bind m (fun _ => k))
  (at level 61, right associativity).

(** ** Reading a trace *)

(** The methods entered, the commands invoked and the console lines
    printed, each in order. *)
Definition calls (t : list event) : list method :=
  flat_map (fun e => match e with Call m => [m] | _ => [] end) t.

Definition commands (t : list event) : list string :=
  flat_map (fun e => match e with Exec c _ _ => [c] | _ => [] end) t.

Definition lines (t : list event) : list string :=
  flat_map (fun e => match e with Log l => [l] | _ => [] end) t.

(** The stages of the pipeline that [execute] awaits inside its [try]
    block, and among them the three platform procedures. *)
Definition is_platform_setup (m : method) : bool :=
  match m with
  | m_setupMacOS | m_setupLinux | m_setupWindows => true
  | _ => false
  end.

Definition is_stage (m : method) : bool :=
  match m with
  | m_checkPrerequisites | m_checkNodeJS | m_installReactNativeCLI => true
  | _ => is_platform_setup m
  end.

Definition stages (t : list event) : list method := filter is_stage (calls t).

Definition platform_setups (t : list event) : list method :=
  filter is_platform_setup (calls t).

(** The recognized platform tags, each with its setup procedure. *)
Definition recognized : list (string * method) :=
  [("darwin", m_setupMacOS); ("linux", m_setupLinux); ("win32", m_setupWindows)].

(** The two commands of the runtime check: the version-manager bootstrap
    (download and execute) and the runtime install. *)
Definition nvm_bootstrap : string :=
  "curl -o- https://raw.githubusercontent.com/nvm-sh/nvm/v0.39.0/install.sh | bash".

Definition nvm_install : string := "source ~/.bashrc && nvm install --lts".

(** ** Example hosts *)

(** The error Node raises when a command fails. *)
Definition failed (command : string) : Error :=
  mkError ("Command failed: " ++ command).

(** A machine without state on which exactly the commands listed in
    [failing] fail, and whose user enters [line] at every prompt. *)
Definition scripted (failing : list string) (line : option string) : Host :=
  {| World := unit;
     spawnSync := fun command w =>
       if existsb (String.eqb command) failing
       then (Failed (failed command), w)
       else (Succeeded, w);
     readLine := fun _ w => (line, w) |}.

(** A Mac whose state is whether Homebrew is installed: the [brew] commands
    fail until the Homebrew install script has run; everything else
    succeeds, and the user declines the IDE download. *)
Definition homebrew_script : string :=
  "/bin/bash -c " ++ dq
    ++ "$(curl -fsSL https://raw.githubusercontent.com/Homebrew/install/HEAD/install.sh)"
    ++ dq.

Definition mac : Host :=
  {| World := bool;
     spawnSync := fun command brew =>
       if command =? homebrew_script then (Succeeded, true)
       else if prefix "brew " command && negb brew
            then (Failed (failed command), brew)
            else (Succeeded, brew);
     readLine := fun _ brew => (Some "n", brew) |}.

(** A machine without node on which the download of the version-manager
    bootstrap fails. *)
Definition offline_without_node : Host :=
  scripted ["node --version"; nvm_bootstrap] None.

(** Machines on which one thing is missing or fails, and a machine on which
    every command succeeds and the user answers [line]. *)
Definition without_git : Host := scripted ["git --version"] None.
Definition without_node : Host := scripted ["node --version"] None.
Definition npm_failing : Host :=
  scripted ["npm install -g react-native-cli"] None.
Definition well_equipped (line : option string) : Host := scripted [] line.

(** ** The parts of [execute] *)

(** What [execute] prints before its [try] block. *)
Definition banner (this : ReactNativeInstaller) : list event :=
  [Call m_execute;
   Log (colors.cyan ++ "React Native Environment Setup" ++ colors.reset);
   Log "----------------------------";
   Log ("Detected platform: " ++ platform this ++ lf)].

(** The three stages every platform runs, the platform branch, and the four
    together: the stages of the [try] block up to the success message. *)
Definition earlier_stages (host : Host) (this : ReactNativeInstaller)
  : M host unit :=
  checkPrerequisites host this ;;
  checkNodeJS host this ;;
  installReactNativeCLI host this.

Definition platform_setup (host : Host) (this : ReactNativeInstaller)
  : M host unit :=
  if platform this =? "darwin" then setupMacOS host this
  else if platform this =? "linux" then setupLinux host this
  else if platform this =? "win32" then setupWindows host this
  else ret tt.

Definition pipeline (host : Host) (this : ReactNativeInstaller) : M host unit :=
  earlier_stages host this ;;
  platform_setup host this.

(** The lines that report how a run of [execute] ended. *)
Definition completion_line : string :=
  colors.green ++ "[SUCCESS]" ++ colors.reset ++ " "
    ++ "React Native environment setup completed successfully!".

Definition failure_line (msg : string) : string :=
  colors.red ++ "[ERROR]" ++ colors.reset ++ " "
    ++ "Installation failed: " ++ msg.

(** What [printNextSteps] does. *)
Definition next_steps_output : list event :=
  [Call m_printNextSteps;
   Log (lf ++ "ðŸ“‹ Next Steps:");
   Log "1. Configure Android Studio and install Android SDK";
   Log "2. Set ANDROID_HOME environment variable";
   Log "3. Add platform-tools to PATH";
   Log ("4. Run " ++ dq ++ "react-native doctor" ++ dq
          ++ " to verify your installation");
   Log ("5. Create your first app: " ++ dq
          ++ "npx react-native init MyApp" ++ dq)].

(** How [execute] ends, given the run of its stages. *)
Definition conclude {host : Host} (this : ReactNativeInstaller)
    (r : run host unit) : run host unit :=
  match r with
  | mkRun (Returned _) w t =>
      mkRun (Returned tt) w
        (banner this ++ t ++ Log completion_line :: next_steps_output)
  | mkRun (Thrown e) w t =>
      mkRun (Exited 1) w (banner this ++ t ++ [Log (failure_line (message e))])
  | mkRun (Exited c) w t => mkRun (Exited c) w (banner this ++ t)
  | mkRun Pending w t => mkRun Pending w (banner this ++ t)
  end.

(** ** Lines of the stages *)

(** The lines that [printStep], [printSuccess] and [printWarning] print. *)
Definition step_line (msg : string) : string :=
  colors.cyan ++ "[STEP]" ++ colors.reset ++ " " ++ msg.

Definition success_line (msg : string) : string :=
  colors.green ++ "[SUCCESS]" ++ colors.reset ++ " " ++ msg.

Definition warning_line (msg : string) : string :=
  colors.yellow ++ "[WARNING]" ++ colors.reset ++ " " ++ msg.

(** The question of the three platform procedures and, for a run [r] of one
    of them with browser-launch command [launch], the property that the
    launch is governed by the answer: if [answer] was captured in [r], then
    [launch] is among the commands of [r] exactly when [answer], lowercased,
    is "y", and any other answer lets the procedure return. *)
Definition studio_query : string :=
  "Would you like to download Android Studio? (y/n): ".

Definition launch_iff_yes {host : Host} (r : run host unit) (launch : string)
  : Prop :=
  forall answer,
    In (Ask studio_query (Some answer)) (trace r) ->
    (In launch (commands (trace r)) <-> toLowerCase answer = "y")
    /\ (toLowerCase answer <> "y" -> out r = Returned tt).

(** ** Quiet traces and tidy runs *)

(** The lines that only the end of [execute] prints: the success message,
    the next steps, and the "Installation failed" report (whatever its
    message). *)
Definition report_line (l : string) : bool :=
  (l =? completion_line)
  || existsb (String.eqb l) (lines next_steps_output)
  || prefix (failure_line "") l.

(** An event is loud when it is a command that was run with inherited
    streams and failed, a report line, or the entry of [printNextSteps]. *)
Definition loud (e : event) : bool :=
  match e with
  | Exec _ inherit (Failed _) => true
  | Log l => report_line l
  | Call m_printNextSteps => true
  | _ => false
  end.

Definition quiet (t : list event) : bool := forallb (fun e => negb (loud e)) t.

(** A run is tidy when it raises exactly the error of the failed command
    that its trace ends with, and is quiet otherwise. *)
Definition tidy {host : Host} {A : Type} (r : run host A) : Prop :=
  match out r with
  | Thrown e =>
      exists pre cmd,
        trace r = (pre ++ [Exec cmd inherit (Failed e)])%list
        /\ quiet pre = true
  | _ => quiet (trace r) = true
  end.

(** ** The rest of the script *)

(** The line that [printError] prints. *)
Definition error_line (msg : string) : string :=
  colors.red ++ "[ERROR]" ++ colors.reset ++ " " ++ msg.

(** The command that bootstraps Chocolatey in [setupWindows]. *)
Definition chocolatey_script : string :=
  "powershell Set-ExecutionPolicy Bypass -Scope Process -Force; [System.Net.ServicePointManager]::SecurityProtocol = [System.Net.ServicePointManager]::SecurityProtocol -bor 3072; iex ((New-Object System.Net.WebClient).DownloadString('https://chocolatey.org/install.ps1'))".

(** The package installs of each platform procedure, in the order in which
    the procedure runs them, and its browser launch. *)
Definition macos_installs : list string :=
  ["brew install watchman"; "brew install adoptopenjdk/openjdk/adoptopenjdk11"].

Definition linux_installs : list string :=
  ["sudo apt-get update"; "sudo apt-get install -y openjdk-11-jdk";
   "sudo apt-get install -y android-tools-adb android-tools-fastboot"].

Definition windows_installs : list string := ["choco install -y openjdk11"].

Definition linux_launch : string :=
  "xdg-open https://developer.android.com/studio".

(** For a run [r] of a platform procedure whose package installs are
    [installs]: the question about the IDE is asked only once every one of
    the installs has succeeded, and a run that returns has asked it and got
    an answer. *)
Definition offered_after {host : Host} (r : run host unit)
    (installs : list string) : Prop :=
  (forall a, In (Ask studio_query a) (trace r) ->
             forall c, In c installs -> In (Exec c inherit Succeeded) (trace r))
  /\ (out r = Returned tt ->
      exists answer, In (Ask studio_query (Some answer)) (trace r)).


Definition without_choco : Host := scripted ["choco --version"] (Some "n").

(** The platform procedure that [execute] selects for a tag, if any. *)
Definition procedure_of (tag : string) : list method :=
  map snd (filter (fun p => tag =? fst p) recognized).

(** A run advances through the stages [l] when the stages it enters are the
    first ones of [l], in order, and all of [l] when it returns. *)
Definition advances {host : Host} {A : Type} (l : list method)
    (r : run host A) : Prop :=
  (exists rest, (stages (trace r) ++ rest)%list = l)
  /\ (forall a, out r = Returned a -> stages (trace r) = l).




(** A run is orderly when it exits with code 1 if it exits at all, and when,
    if it stays suspended, the last thing it did was to ask the question
    about the IDE, which got no answer. *)
Definition orderly {host : Host} {A : Type} (r : run host A) : Prop :=
  match out r with
  | Exited c => c = 1%Z
  | Pending => exists t, trace r = (t ++ [Ask studio_query None])%list
  | _ => True
  end.

(** Settle a hypothesis [H : In ev t] on a concrete trace [t]: every event
    of [t] that differs from [ev] is discarded, an event that can be [ev] is
    identified with it. *)
Ltac find_event H :=
  cbn [In trace] in H;
  repeat (destruct H as [H | H];
          [ try discriminate H; injection H; clear H; intros; subst | ]);
  try contradiction.

Section Verification.

Context (host : Host).

(** *** Symbolic execution of a run *)

Ltac run_eval H := cbv - [spawnSync readLine String.eqb toLowerCase] in H.

Ltac run_paths H :=
  run_eval H;
  repeat (match type of H with
          | context [spawnSync host ?c ?w] =>
              is_var w;
              first
                [ match goal with
                  | Hs : spawnSync host c w = _ |- _ => rewrite Hs in H
                  end
                | destruct (spawnSync host c w) as [[|?e] ?w] eqn:? ]
          | context [readLine host ?q ?w] =>
              is_var w; destruct (readLine host q w) as [[?a|] ?w] eqn:?
          | context [if String.eqb ?a ?b then _ else _] =>
              let v := eval cbv in (String.eqb a b) in
              lazymatch v with
              | true => change (String.eqb a b) with true in H
              | false => change (String.eqb a b) with false in H
              | _ =>
                  first
                    [ match goal with
                      | Hb : String.eqb a b = _ |- _ => rewrite Hb in H
                      end
                    | destruct (String.eqb a b) eqn:? ]
              end
          end; run_eval H);
  injection H as <- <- <-.

(** Turn a hypothesis on the result of a probe into the equation that
    [run_paths] rewrites with. *)
Ltac probe_result H :=
  match type of H with
  | fst (spawnSync host ?c ?w) = _ =>
      let r := fresh "r" in
      let w' := fresh "w" in
      let Hs := fresh "Hs" in
      destruct (spawnSync host c w) as [r w'] eqn:Hs;
      cbn [fst snd] in *; subst r
  end.

Ltac destruct_runs :=
  repeat match goal with
    | |- context [match ?r with mkRun _ _ _ => _ end] =>
        lazymatch r with
        | match _ with _ => _ end => fail
        | _ => destruct r as [[[]|?e|?c|] ?w ?t]; cbn [app]
        end
    end.

(** [execute] runs the pipeline and concludes. *)
Lemma execute_run (this : ReactNativeInstaller) (w : World host) :
  execute host this w = conclude this (pipeline host this w).
Proof.
  cbv [execute pipeline earlier_stages platform_setup conclude banner
       next_steps_output completion_line failure_line
       printSuccess printError printNextSteps console_log process_exit
       enter emit bind try_catch].
  destruct_runs.
  all: repeat (rewrite <- app_assoc; cbn [app]); reflexivity.
Qed.

(** *** Quiet traces *)

Lemma quiet_app (t1 t2 : list event) :
  quiet (t1 ++ t2)%list = quiet t1 && quiet t2.
Proof. apply forallb_app. Qed.

Lemma quiet_In (t : list event) (e : event) :
  quiet t = true -> In e t -> loud e = false.
Proof.
  unfold quiet. rewrite forallb_forall. intros Hq Hin.
  apply Hq in Hin. now apply negb_true_iff.
Qed.

Lemma loud_failure_line (msg : string) : loud (Log (failure_line msg)) = true.
Proof. destruct msg; reflexivity. Qed.

Lemma quiet_banner (this : ReactNativeInstaller) : quiet (banner this) = true.
Proof. reflexivity. Qed.

(** *** Tidy runs: one rule per construct of the script *)

Lemma tidy_ret {A} (a : A) (w : World host) : tidy (ret a w).
Proof. reflexivity. Qed.

Lemma tidy_emit (e : event) (w : World host) :
  loud e = false -> tidy (emit host e w).
Proof. intros H. cbv [tidy emit out trace quiet forallb]. now rewrite H. Qed.

Lemma tidy_exit {A} (code : Z) (w : World host) :
  tidy (process_exit host (A := A) code w).
Proof. reflexivity. Qed.

Lemma tidy_execSync (command : string) (w : World host) :
  tidy (execSync host command inherit w).
Proof.
  unfold execSync. destruct (spawnSync host command w) as [[|e] w'].
  - reflexivity.
  - exists [], command. now split.
Qed.

Lemma tidy_question (this : ReactNativeInstaller) (query : string)
    (w : World host) :
  tidy (question host this query w).
Proof.
  cbv [question bind enter emit].
  destruct (readLine host query w) as [[a|] w']; reflexivity.
Qed.

Lemma tidy_checkCommand (this : ReactNativeInstaller) (command : string)
    (w : World host) :
  tidy (checkCommand host this command w).
Proof.
  cbv [checkCommand bind try_catch execSync enter emit ret].
  destruct (spawnSync host (command ++ " --version") w) as [[|e] w'];
    reflexivity.
Qed.

Lemma tidy_bind {A B} (m : M host A) (k : A -> M host B) :
  (forall w, tidy (m w)) -> (forall a w, tidy (k a w)) ->
  forall w, tidy (bind m k w).
Proof.
  intros Hm Hk w. unfold bind.
  specialize (Hm w). destruct (m w) as [[a|e|c|] w1 t1]; try exact Hm.
  specialize (Hk a w1). destruct (k a w1) as [[b|e|c|] w2 t2];
    cbv [tidy out trace] in *;
    try (rewrite quiet_app, Hm, Hk; reflexivity).
  destruct Hk as (pre & cmd & -> & Hq).
  exists (t1 ++ pre)%list, cmd. split.
  - now rewrite app_assoc.
  - now rewrite quiet_app, Hm, Hq.
Qed.

Ltac tidy_step :=
  first
    [ apply tidy_checkCommand
    | apply tidy_question
    | apply tidy_bind; [intros ? | intros ? ?]
    | apply tidy_ret
    | apply tidy_exit
    | apply tidy_execSync
    | apply tidy_emit; reflexivity
    | match goal with
      | |- tidy ((if ?b then _ else _) _) => destruct b
      end ].

Ltac tidy_stage :=
  intros;
  cbv [printStep printSuccess printWarning console_log enter];
  repeat tidy_step.

Lemma tidy_checkPrerequisites this w : tidy (checkPrerequisites host this w).
Proof. unfold checkPrerequisites. tidy_stage. Qed.

Lemma tidy_checkNodeJS this w : tidy (checkNodeJS host this w).
Proof. unfold checkNodeJS. tidy_stage. Qed.

Lemma tidy_installReactNativeCLI this w :
  tidy (installReactNativeCLI host this w).
Proof. unfold installReactNativeCLI. tidy_stage. Qed.

Lemma tidy_setupMacOS this w : tidy (setupMacOS host this w).
Proof. unfold setupMacOS. tidy_stage. Qed.

Lemma tidy_setupLinux this w : tidy (setupLinux host this w).
Proof. unfold setupLinux. tidy_stage. Qed.

Lemma tidy_setupWindows this w : tidy (setupWindows host this w).
Proof. unfold setupWindows. tidy_stage. Qed.

Lemma tidy_platform_setup this w : tidy (platform_setup host this w).
Proof.
  unfold platform_setup.
  repeat match goal with
    | |- tidy ((if ?b then _ else _) _) => destruct b
    end;
    auto using tidy_setupMacOS, tidy_setupLinux, tidy_setupWindows, tidy_ret.
Qed.

Lemma tidy_pipeline this w : tidy (pipeline host this w).
Proof.
  revert w. unfold pipeline, earlier_stages.
  apply tidy_bind; [ | intros _ w; apply tidy_platform_setup ].
  apply tidy_bind; [ intros w; apply tidy_checkPrerequisites | intros _ ].
  apply tidy_bind; [ intros w; apply tidy_checkNodeJS | intros _ w ].
  apply tidy_installReactNativeCLI.
Qed.

(** *** Which stages a run enters *)

Lemma stages_app (t1 t2 : list event) :
  stages (t1 ++ t2) = (stages t1 ++ stages t2)%list.
Proof. unfold stages, calls. now rewrite flat_map_app, filter_app. Qed.

Lemma platform_setups_stages (t : list event) :
  platform_setups t = filter is_platform_setup (stages t).
Proof.
  unfold platform_setups, stages.
  induction (calls t) as [|m l IH]; [reflexivity | ].
  destruct m; cbn; now rewrite IH.
Qed.

Lemma bind_returned {A B} (m : M host A) (k : A -> M host B)
    (w : World host) (b : B) :
  out (bind m k w) = Returned b ->
  exists a,
    out (m w) = Returned a
    /\ out (k a (world (m w))) = Returned b
    /\ trace (bind m k w) = (trace (m w) ++ trace (k a (world (m w))))%list.
Proof.
  unfold bind. destruct (m w) as [[a|e|c|] w1 t1]; try discriminate.
  cbn. destruct (k a w1) as [o w2 t2] eqn:Ek. cbn. intros ->.
  exists a. now rewrite Ek.
Qed.

Ltac stage_paths :=
  intros;
  match goal with
  | |- context [trace ?r] =>
      let E := fresh "E" in
      destruct r as [?o ?w ?t] eqn:E; run_paths E; reflexivity
  end.

Lemma stages_checkPrerequisites this w :
  stages (trace (checkPrerequisites host this w)) = [m_checkPrerequisites].
Proof. stage_paths. Qed.

Lemma stages_checkNodeJS this w :
  stages (trace (checkNodeJS host this w)) = [m_checkNodeJS].
Proof. stage_paths. Qed.

Lemma stages_installReactNativeCLI this w :
  stages (trace (installReactNativeCLI host this w))
  = [m_installReactNativeCLI].
Proof. stage_paths. Qed.

Lemma stages_setupMacOS this w :
  stages (trace (setupMacOS host this w)) = [m_setupMacOS].
Proof. stage_paths. Qed.

Lemma stages_setupLinux this w :
  stages (trace (setupLinux host this w)) = [m_setupLinux].
Proof. stage_paths. Qed.

Lemma stages_setupWindows this w :
  stages (trace (setupWindows host this w)) = [m_setupWindows].
Proof. stage_paths. Qed.

Lemma stages_earlier_returned this w :
  out (earlier_stages host this w) = Returned tt ->
  stages (trace (earlier_stages host this w))
  = [m_checkPrerequisites; m_checkNodeJS; m_installReactNativeCLI].
Proof.
  unfold earlier_stages. intros H.
  apply bind_returned in H as (a1 & _ & H & ->).
  apply bind_returned in H as (a2 & _ & _ & ->).
  now rewrite !stages_app, stages_checkPrerequisites, stages_checkNodeJS,
    stages_installReactNativeCLI.
Qed.

Lemma platform_setup_recognized this s :
  In (platform this, s) recognized ->
  forall w, stages (trace (platform_setup host this w)) = [s].
Proof.
  destruct this as [p]. unfold recognized, platform_setup. cbn [In platform].
  intros [H | [H | [H | []]]] w; injection H as <- <-; cbn [String.eqb].
  - apply stages_setupMacOS.
  - apply stages_setupLinux.
  - apply stages_setupWindows.
Qed.

Lemma platform_setup_unrecognized this :
  ~ In (platform this) (map fst recognized) ->
  forall w, platform_setup host this w = ret tt w.
Proof.
  unfold platform_setup. intros H w.
  assert (Hne : forall tag, In tag (map fst recognized) ->
                            (platform this =? tag) = false).
  { intros tag Htag. apply String.eqb_neq. congruence. }
  rewrite !Hne; [reflexivity | | | ]; cbn; auto.
Qed.

(** *** The shape of every run of [execute] *)

Lemma final_output_loud (ev : event) :
  In ev (Log completion_line :: next_steps_output) -> loud ev = true.
Proof.
  cbv [In next_steps_output].
  intros H; repeat (destruct H as [<- | H]; [reflexivity | ]); easy.
Qed.

Lemma final_output_not_failure (ev : event) (msg : string) :
  In ev (Log completion_line :: next_steps_output) ->
  ev <> Log (failure_line msg).
Proof.
  cbv [In next_steps_output].
  intros H; repeat (destruct H as [<- | H]; [cbv; discriminate | ]); easy.
Qed.

Lemma final_output_no_command (c : string) (io : stdio) (r : result) :
  ~ In (Exec c io r) (Log completion_line :: next_steps_output).
Proof.
  cbv [In next_steps_output].
  intros H; repeat (destruct H as [H | H]; [discriminate H | ]); easy.
Qed.

Lemma execute_shape (this : ReactNativeInstaller) (w : World host) :
  exists t,
    quiet t = true
    /\ ((out (execute host this w) = Returned tt
         /\ trace (execute host this w)
            = (t ++ Log completion_line :: next_steps_output)%list)
        \/ (exists cmd e,
              out (execute host this w) = Exited 1
              /\ trace (execute host this w)
                 = (t ++ [Exec cmd inherit (Failed e);
                          Log (failure_line (message e))])%list)
        \/ ((forall a, out (execute host this w) <> Returned a)
            /\ trace (execute host this w) = t)).
Proof.
  rewrite execute_run. pose proof (tidy_pipeline this w) as Hp.
  destruct (pipeline host this w) as [[[]|e|c|] w1 t1];
    cbv [tidy out trace] in Hp; cbv [conclude out trace].
  - exists (banner this ++ t1)%list. split.
    + now rewrite quiet_app, quiet_banner, Hp.
    + left. split; [reflexivity | now rewrite app_assoc].
  - destruct Hp as (pre & cmd & -> & Hq).
    exists (banner this ++ pre)%list. split.
    + now rewrite quiet_app, quiet_banner, Hq.
    + right; left. exists cmd, e. split; [reflexivity | ].
      now rewrite <- !app_assoc.
  - exists (banner this ++ t1)%list. split.
    + now rewrite quiet_app, quiet_banner, Hp.
    + right; right. split; [intros a; discriminate | reflexivity].
  - exists (banner this ++ t1)%list. split.
    + now rewrite quiet_app, quiet_banner, Hp.
    + right; right. split; [intros a; discriminate | reflexivity].
Qed.

(** C3 (amended).  In every run of [execute] in which a command that a
    stage runs directly (with inherited streams, so not an existence probe
    inside [checkCommand]) raises an error, the run prints the
    "Installation failed" line carrying that error's message right after
    the failed command, as its last line, and exits with code 1; neither
    the success message nor any of the next-steps output is produced. *)
Theorem direct_failure_reported (this : ReactNativeInstaller)
    (w : World host) (cmd : string) (e : Error) :
  In (Exec cmd inherit (Failed e)) (trace (execute host this w)) ->
  out (execute host this w) = Exited 1
  /\ (exists t,
        trace (execute host this w)
        = (t ++ [Exec cmd inherit (Failed e);
                 Log (failure_line (message e))])%list)
  /\ (forall ev, In ev (Log completion_line :: next_steps_output) ->
                 ~ In ev (trace (execute host this w))).
Proof.
  intros Hin.
  destruct (execute_shape this w) as (t & Hq & [[Ho Ht] | [H | [Ho Ht]]]).
  - exfalso. rewrite Ht in Hin. apply in_app_or in Hin as [Hin | Hin].
    + now apply (quiet_In _ _ Hq) in Hin.
    + now apply final_output_no_command in Hin.
  - destruct H as (cmd' & e' & Ho & Ht). rewrite Ht in Hin.
    apply in_app_or in Hin as [Hin | Hin].
    + now apply (quiet_In _ _ Hq) in Hin.
    + destruct Hin as [Hin | [Hin | []]]; [ | discriminate Hin ].
      injection Hin as -> ->. split; [exact Ho | ]. split.
      * now exists t.
      * intros ev Hev Hin. rewrite Ht in Hin.
        apply in_app_or in Hin as [Hin | [<- | [<- | []]]].
        -- apply (quiet_In _ _ Hq) in Hin.
           apply final_output_loud in Hev. congruence.
        -- now apply final_output_no_command in Hev.
        -- now apply (final_output_not_failure _ (message e)) in Hev.
  - exfalso. rewrite Ht in Hin. now apply (quiet_In _ _ Hq) in Hin.
Qed.

(** C10.  No run of [execute] prints both the final success message and
    an "Installation failed" line: a run that prints the failure line ends
    there, exiting with code 1, and a run that prints the success message
    returns. *)
Theorem success_excludes_failure (this : ReactNativeInstaller)
    (w : World host) :
  ~ (In (Log completion_line) (trace (execute host this w))
     /\ exists msg, In (Log (failure_line msg)) (trace (execute host this w))).
Proof.
  intros [Hs [msg Hf]].
  destruct (execute_shape this w) as (t & Hq & [[Ho Ht] | [H | [Ho Ht]]]).
  - rewrite Ht in Hf. apply in_app_or in Hf as [Hf | Hf].
    + apply (quiet_In _ _ Hq) in Hf. now rewrite loud_failure_line in Hf.
    + now apply (final_output_not_failure _ msg) in Hf.
  - destruct H as (cmd & e & Ho & Ht). rewrite Ht in Hs.
    apply in_app_or in Hs as [Hs | [Hs | [Hs | []]]].
    + now apply (quiet_In _ _ Hq) in Hs.
    + discriminate Hs.
    + symmetry in Hs. revert Hs.
      apply final_output_not_failure. now left.
  - rewrite Ht in Hs. now apply (quiet_In _ _ Hq) in Hs.
Qed.

(** *** Runs of [execute] that return *)

Lemma conclude_returned (this : ReactNativeInstaller) (r : run host unit) :
  out (conclude this r) = Returned tt ->
  out r = Returned tt
  /\ trace (conclude this r)
     = ((banner this ++ trace r)
          ++ Log completion_line :: next_steps_output)%list.
Proof.
  destruct r as [[[]|e|c|] w1 t1]; cbn [conclude out trace];
    try discriminate.
  intros _. now rewrite app_assoc.
Qed.

(** C7.  For each recognized platform tag, a run of [execute] that
    returns enters exactly these stages, in this order: the prerequisite
    check, the runtime check, the CLI install and the one platform
    procedure of the tag; after them, and nowhere before, come the success
    message and the next-steps output, which end the run. *)
Theorem recognized_platform_stage_sequence (this : ReactNativeInstaller)
    (w : World host) (s : method) :
  In (platform this, s) recognized ->
  out (execute host this w) = Returned tt ->
  exists pre,
    trace (execute host this w)
    = (pre ++ Log completion_line :: next_steps_output)%list
    /\ stages pre
       = [m_checkPrerequisites; m_checkNodeJS; m_installReactNativeCLI; s]
    /\ (forall ev, In ev (Log completion_line :: next_steps_output) ->
                   ~ In ev pre).
Proof.
  intros Hrec Hout. rewrite execute_run in *.
  apply conclude_returned in Hout as [Hp ->].
  exists (banner this ++ trace (pipeline host this w))%list.
  split; [reflexivity | ]. split.
  - rewrite stages_app. change (stages (banner this)) with (@nil method).
    unfold pipeline in *.
    apply bind_returned in Hp as ([] & He & _ & ->).
    now rewrite stages_app, (stages_earlier_returned _ _ He),
      (platform_setup_recognized _ _ Hrec).
  - intros ev Hev Hin. apply final_output_loud in Hev.
    pose proof (tidy_pipeline this w) as Ht. unfold tidy in Ht.
    rewrite Hp in Ht.
    assert (Hq : quiet (banner this ++ trace (pipeline host this w)) = true)
      by now rewrite quiet_app, quiet_banner, Ht.
    apply (quiet_In _ _ Hq) in Hin. congruence.
Qed.

(** C1.  For every platform tag other than the three recognized ones, if
    the prerequisite check, the runtime check and the CLI install return,
    then [execute] returns, its trace is the banner, the trace of those
    three stages and then the success message and the next-steps output,
    and none of the three platform procedures is entered. *)
Theorem unrecognized_platform_completes (this : ReactNativeInstaller)
    (w : World host) :
  ~ In (platform this) (map fst recognized) ->
  out (earlier_stages host this w) = Returned tt ->
  out (execute host this w) = Returned tt
  /\ trace (execute host this w)
     = (banner this ++ trace (earlier_stages host this w)
          ++ Log completion_line :: next_steps_output)%list
  /\ platform_setups (trace (execute host this w)) = [].
Proof.
  intros Hun He.
  assert (Hrun : execute host this w
                 = conclude this (earlier_stages host this w)).
  { rewrite execute_run. unfold pipeline, bind.
    destruct (earlier_stages host this w) as [[[]|e|c|] w1 t1];
      try discriminate He.
    rewrite (platform_setup_unrecognized _ Hun). cbn [ret].
    now rewrite app_nil_r. }
  rewrite Hrun. pose proof (stages_earlier_returned _ _ He) as Hs.
  destruct (earlier_stages host this w) as [[[]|e|c|] w1 t1];
    try discriminate He.
  cbn [conclude out trace] in *. split; [reflexivity | ].
  split; [reflexivity | ].
  rewrite platform_setups_stages, !stages_app, Hs. reflexivity.
Qed.

(** *** The existence probe *)

(** C8.  [checkCommand] always returns, whatever the command name and the
    machine: it returns [true] when invoking the name with [--version]
    succeeds and [false] when that invocation raises, for whatever reason;
    the invocation, with its output ignored, is all that it does. *)
Theorem checkCommand_total (this : ReactNativeInstaller) (name : string)
    (w : World host) :
  let probe := spawnSync host (name ++ " --version") w in
  out (checkCommand host this name w)
  = Returned (match fst probe with Succeeded => true | Failed _ => false end)
  /\ world (checkCommand host this name w) = snd probe
  /\ trace (checkCommand host this name w)
     = [Call m_checkCommand; Exec (name ++ " --version") ignore (fst probe)].
Proof.
  cbv [checkCommand bind try_catch execSync enter emit ret].
  destruct (spawnSync host (name ++ " --version") w) as [[|e] w'];
    cbn; auto.
Qed.

(** *** The hard exits and the runtime check *)

(** C2.  If the probe of git reports absent, [execute] exits with code 1
    right after the warning: its trace is the banner, the entry of the
    prerequisite check, the probe and the warning, so the only stage
    entered is the prerequisite check and the only command invoked is the
    probe. *)
Theorem git_absent_hard_exit (this : ReactNativeInstaller) (w : World host)
    (e : Error) :
  fst (spawnSync host "git --version" w) = Failed e ->
  out (execute host this w) = Exited 1
  /\ trace (execute host this w)
     = (banner this
          ++ [Call m_checkPrerequisites;
              Log (step_line "Checking prerequisites...");
              Call m_checkCommand;
              Exec "git --version" ignore (Failed e);
              Log (warning_line
                     "Git is not installed. Please install Git and run this script again.")])%list
  /\ stages (trace (execute host this w)) = [m_checkPrerequisites]
  /\ commands (trace (execute host this w)) = ["git --version"].
Proof.
  intros Hgit. probe_result Hgit.
  destruct (execute host this w) as [o w' t] eqn:E. run_paths E.
  repeat split; reflexivity.
Qed.

(** C6.  If the probe of node reports present, [checkNodeJS] returns
    after the probe and one success line; the probe is the only command it
    invokes, so neither the bootstrap nor the runtime install runs. *)
Theorem node_present_no_install (this : ReactNativeInstaller)
    (w : World host) :
  fst (spawnSync host "node --version" w) = Succeeded ->
  out (checkNodeJS host this w) = Returned tt
  /\ trace (checkNodeJS host this w)
     = [Call m_checkNodeJS;
        Log (step_line "Checking Node.js installation...");
        Call m_checkCommand;
        Exec "node --version" ignore Succeeded;
        Log (success_line "Node.js is already installed.")]
  /\ commands (trace (checkNodeJS host this w)) = ["node --version"]
  /\ ~ In nvm_bootstrap (commands (trace (checkNodeJS host this w)))
  /\ ~ In nvm_install (commands (trace (checkNodeJS host this w))).
Proof.
  intros Hnode. probe_result Hnode.
  destruct (checkNodeJS host this w) as [o w' t] eqn:E. run_paths E.
  repeat split; try reflexivity.
  all: cbv; intros [H | []]; discriminate H.
Qed.

(** C4.  On the platform tag [win32], every run of [execute] in which the
    probe of node reports absent prints the guidance and exits with code 1:
    its trace is the banner, the prerequisite check, the failed probe and
    the guidance, and the two probes are the only commands invoked. *)
Theorem windows_node_absent_hard_exit (this : ReactNativeInstaller)
    (w : World host) (e : Error) :
  platform this = "win32" ->
  In (Exec "node --version" ignore (Failed e)) (trace (execute host this w)) ->
  out (execute host this w) = Exited 1
  /\ trace (execute host this w)
     = (banner this
          ++ [Call m_checkPrerequisites;
              Log (step_line "Checking prerequisites...");
              Call m_checkCommand;
              Exec "git --version" ignore Succeeded;
              Log (success_line "Prerequisites check complete.");
              Call m_checkNodeJS;
              Log (step_line "Checking Node.js installation...");
              Call m_checkCommand;
              Exec "node --version" ignore (Failed e);
              Log (step_line "Node.js not found. Installing using NVM...");
              Log (warning_line
                     "Please install Node.js from https://nodejs.org/")])%list
  /\ commands (trace (execute host this w))
     = ["git --version"; "node --version"].
Proof.
  destruct this as [p]. cbn [platform]. intros -> Hin.
  destruct (execute host (mkInstaller "win32") w) as [o w' t] eqn:E.
  run_paths E; find_event Hin; repeat split; reflexivity.
Qed.

(** C9 (amended).  For every platform tag other than [win32], recognized
    or not, if the probe of node reports absent then [checkNodeJS] does not
    exit: it invokes the version-manager bootstrap and, when that command
    succeeds, the runtime install; when the bootstrap raises, its error is
    raised and the install is not invoked. *)
Theorem runtime_bootstrap_off_windows (this : ReactNativeInstaller)
    (w : World host) (e : Error) :
  platform this <> "win32" ->
  fst (spawnSync host "node --version" w) = Failed e ->
  let boot :=
    spawnSync host nvm_bootstrap (snd (spawnSync host "node --version" w)) in
  (forall code, out (checkNodeJS host this w) <> Exited code)
  /\ commands (trace (checkNodeJS host this w))
     = "node --version" :: nvm_bootstrap
         :: match fst boot with
            | Succeeded => [nvm_install]
            | Failed _ => []
            end
  /\ (forall e', fst boot = Failed e' ->
                 out (checkNodeJS host this w) = Thrown e').
Proof.
  destruct this as [p]. cbn [platform]. intros Hp Hnode.
  apply String.eqb_neq in Hp. probe_result Hnode.
  destruct (checkNodeJS host (mkInstaller p) w) as [o w' t] eqn:E.
  cbv [nvm_bootstrap].
  destruct (spawnSync host _ w0) as [[|e1] w1] eqn:Hboot.
  all: run_paths E; cbn [fst out trace].
  all: repeat split; try reflexivity; try discriminate.
  all: intros e' [= <-]; reflexivity.
Qed.

(** *** The offer to download the IDE *)

(** Only "y" and "Y" lowercase to "y". *)
Lemma toLowerCase_y (s : string) :
  toLowerCase s = "y" <-> s = "y" \/ s = "Y".
Proof.
  split.
  - destruct s as [|c [|c' s']]; cbn [toLowerCase]; try discriminate.
    intros H. injection H as H. revert H.
    destruct c as [[] [] [] [] [] [] [] []]; cbv; intros H;
      try discriminate H; auto.
  - intros [-> | ->]; reflexivity.
Qed.

Ltac launch_paths :=
  intros;
  match goal with
  | |- launch_iff_yes ?r _ =>
      let E := fresh "E" in
      destruct r as [?o ?w ?t] eqn:E; run_paths E
  end;
  intros answer Hask; find_event Hask;
  cbn [out trace];
  match goal with
  | Hb : String.eqb _ _ = true |- _ =>
      apply String.eqb_eq in Hb;
      split; [ split; [ intros _; exact Hb | intros _; cbv; tauto ]
             | intros Hne; contradiction ]
  | Hb : String.eqb _ _ = false |- _ =>
      apply String.eqb_neq in Hb;
      split; [ split; [ intros Hin; exfalso; cbv in Hin;
                        repeat (destruct Hin as [Hin | Hin];
                                [ discriminate Hin | ]);
                        exact Hin
                      | intros Hy; contradiction ]
             | intros _; reflexivity ]
  end.

Lemma launch_setupMacOS this w :
  launch_iff_yes (setupMacOS host this w)
    "open https://developer.android.com/studio".
Proof. launch_paths. Qed.

Lemma launch_setupLinux this w :
  launch_iff_yes (setupLinux host this w)
    "xdg-open https://developer.android.com/studio".
Proof. launch_paths. Qed.

Lemma launch_setupWindows this w :
  launch_iff_yes (setupWindows host this w)
    "start https://developer.android.com/studio".
Proof. launch_paths. Qed.

(** C5.  In each of the three platform procedures, once a response to the
    question is captured, the browser-launch command of that procedure is
    invoked if and only if the response, lowercased, equals "y"; for
    every other response, the empty one included, no launch is invoked and
    the procedure returns. *)
Theorem studio_launch_iff_yes (this : ReactNativeInstaller) (w : World host) :
  launch_iff_yes (setupMacOS host this w)
    "open https://developer.android.com/studio"
  /\ launch_iff_yes (setupLinux host this w)
       "xdg-open https://developer.android.com/studio"
  /\ launch_iff_yes (setupWindows host this w)
       "start https://developer.android.com/studio".
Proof.
  split; [apply launch_setupMacOS | ].
  split; [apply launch_setupLinux | apply launch_setupWindows].
Qed.

(** *** How [bind] composes outcomes and traces *)

Lemma trace_bind {A B} (m : M host A) (k : A -> M host B) (w : World host) :
  trace (bind m k w)
  = (trace (m w)
       ++ match out (m w) with
          | Returned a => trace (k a (world (m w)))
          | _ => []
          end)%list.
Proof.
  unfold bind. destruct (m w) as [[a|e|c|] w1 t1]; cbn [out world trace];
    try (now rewrite app_nil_r).
  now destruct (k a w1).
Qed.

Lemma out_bind_unit {B} (m : M host unit) (k : unit -> M host B)
    (w : World host) :
  out (bind m k w)
  = match out (m w) with
    | Returned a => out (k a (world (m w)))
    | Thrown e => Thrown e
    | Exited c => Exited c
    | Pending => Pending
    end.
Proof.
  unfold bind. destruct (m w) as [[a|e|c|] w1 t1]; cbn [out world trace];
    try reflexivity.
  now destruct (k a w1).
Qed.

(** *** Orderly runs *)

Lemma orderly_ret {A} (a : A) (w : World host) : orderly (ret a w).
Proof. exact I. Qed.

Lemma orderly_emit (e : event) (w : World host) : orderly (emit host e w).
Proof. exact I. Qed.

Lemma orderly_exit {A} (w : World host) :
  orderly (process_exit host (A := A) 1 w).
Proof. reflexivity. Qed.

Lemma orderly_execSync (command : string) (io : stdio) (w : World host) :
  orderly (execSync host command io w).
Proof.
  unfold execSync. now destruct (spawnSync host command w) as [[|e] w'].
Qed.

Lemma orderly_checkCommand (this : ReactNativeInstaller) (command : string)
    (w : World host) :
  orderly (checkCommand host this command w).
Proof.
  cbv [checkCommand bind try_catch execSync enter emit ret].
  now destruct (spawnSync host (command ++ " --version") w) as [[|e] w'].
Qed.

Lemma orderly_question (this : ReactNativeInstaller) (w : World host) :
  orderly (question host this studio_query w).
Proof.
  cbv [question bind enter emit].
  destruct (readLine host studio_query w) as [[a|] w']; [exact I | ].
  now exists [Call m_question].
Qed.

Lemma orderly_bind {A B} (m : M host A) (k : A -> M host B) :
  (forall w, orderly (m w)) -> (forall a w, orderly (k a w)) ->
  forall w, orderly (bind m k w).
Proof.
  intros Hm Hk w. unfold bind.
  specialize (Hm w). destruct (m w) as [[a|e|c|] w1 t1]; try exact Hm.
  specialize (Hk a w1). destruct (k a w1) as [[b|e|c|] w2 t2];
    cbv [orderly out trace] in *; try exact Hk.
  destruct Hk as [t ->]. exists (t1 ++ t)%list. now rewrite app_assoc.
Qed.

Ltac orderly_step :=
  first
    [ apply orderly_checkCommand
    | apply orderly_question
    | apply orderly_bind; [intros ? | intros ? ?]
    | apply orderly_ret
    | apply orderly_exit
    | apply orderly_execSync
    | apply orderly_emit
    | match goal with
      | |- orderly ((if ?b then _ else _) _) => destruct b
      end ].

Ltac orderly_stage :=
  intros;
  cbv [printStep printSuccess printWarning console_log enter];
  repeat orderly_step.

Lemma orderly_checkPrerequisites this w :
  orderly (checkPrerequisites host this w).
Proof. unfold checkPrerequisites. orderly_stage. Qed.

Lemma orderly_checkNodeJS this w : orderly (checkNodeJS host this w).
Proof. unfold checkNodeJS. orderly_stage. Qed.

Lemma orderly_installReactNativeCLI this w :
  orderly (installReactNativeCLI host this w).
Proof. unfold installReactNativeCLI. orderly_stage. Qed.

Lemma orderly_setupMacOS this w : orderly (setupMacOS host this w).
Proof. unfold setupMacOS. orderly_stage. Qed.

Lemma orderly_setupLinux this w : orderly (setupLinux host this w).
Proof. unfold setupLinux. orderly_stage. Qed.

Lemma orderly_setupWindows this w : orderly (setupWindows host this w).
Proof. unfold setupWindows. orderly_stage. Qed.

Lemma orderly_pipeline this w : orderly (pipeline host this w).
Proof.
  revert w. unfold pipeline, earlier_stages.
  apply orderly_bind.
  - apply orderly_bind; [ intros w; apply orderly_checkPrerequisites | intros _ ].
    apply orderly_bind; [ intros w; apply orderly_checkNodeJS | intros _ w ].
    apply orderly_installReactNativeCLI.
  - intros _ w. unfold platform_setup.
    repeat match goal with
      | |- orderly ((if ?b then _ else _) _) => destruct b
      end;
      auto using orderly_setupMacOS, orderly_setupLinux, orderly_setupWindows,
        orderly_ret.
Qed.

(** X1.  [execute] never lets an error escape and never exits with a code
    other than 1: whatever the machine and the platform tag, a run returns,
    exits with code 1, or stays suspended on the question. *)
Theorem execute_exit_code (this : ReactNativeInstaller) (w : World host) :
  (forall e, out (execute host this w) <> Thrown e)
  /\ (forall c, out (execute host this w) = Exited c -> c = 1%Z).
Proof.
  rewrite execute_run. pose proof (orderly_pipeline this w) as Ho.
  destruct (pipeline host this w) as [[[]|e|c|] w1 t1];
    cbv [orderly conclude out trace] in *; split;
    try discriminate; congruence.
Qed.


(** *** The order of the stages *)

Lemma advances_bind {A B} (m : M host A) (k : A -> M host B)
    (l1 l2 : list method) :
  (forall w, advances l1 (m w)) -> (forall a w, advances l2 (k a w)) ->
  forall w, advances (l1 ++ l2) (bind m k w).
Proof.
  intros Hm Hk w. destruct (Hm w) as [[rest1 Hp1] Hr1]. split.
  - rewrite trace_bind, stages_app.
    destruct (out (m w)) as [a|e|c|] eqn:Ho.
    + destruct (Hk a (world (m w))) as [[rest2 Hp2] _].
      exists rest2. now rewrite (Hr1 a), <- app_assoc, Hp2.
    + exists (rest1 ++ l2)%list. now rewrite app_nil_r, app_assoc, Hp1.
    + exists (rest1 ++ l2)%list. now rewrite app_nil_r, app_assoc, Hp1.
    + exists (rest1 ++ l2)%list. now rewrite app_nil_r, app_assoc, Hp1.
  - intros b Hb. apply bind_returned in Hb as (a & Ha & Hb & ->).
    destruct (Hk a (world (m w))) as [_ Hr2].
    now rewrite stages_app, (Hr1 a Ha), (Hr2 b Hb).
Qed.

Lemma advances_stage {A} (s : method) (r : run host A) :
  stages (trace r) = [s] -> advances [s] r.
Proof. intros H. split; [exists []; now rewrite H | now intros _ _]. Qed.

Lemma advances_platform_setup this w :
  advances (procedure_of (platform this)) (platform_setup host this w).
Proof.
  destruct this as [p].
  unfold platform_setup, procedure_of, recognized.
  cbn [platform filter map fst snd].
  destruct (String.eqb_spec p "darwin") as [-> | _];
    [apply advances_stage, stages_setupMacOS | ].
  destruct (String.eqb_spec p "linux") as [-> | _];
    [apply advances_stage, stages_setupLinux | ].
  destruct (String.eqb_spec p "win32") as [-> | _];
    [apply advances_stage, stages_setupWindows | ].
  split; [now exists [] | reflexivity].
Qed.

Lemma advances_pipeline this w :
  advances
    ([m_checkPrerequisites; m_checkNodeJS; m_installReactNativeCLI]
       ++ procedure_of (platform this))
    (pipeline host this w).
Proof.
  revert w. unfold pipeline, earlier_stages.
  apply advances_bind; [ | intros _ w; apply advances_platform_setup ].
  apply (advances_bind _ _ [m_checkPrerequisites]
           [m_checkNodeJS; m_installReactNativeCLI]).
  - intros w. apply advances_stage, stages_checkPrerequisites.
  - intros _.
    apply (advances_bind _ _ [m_checkNodeJS] [m_installReactNativeCLI]).
    + intros w. apply advances_stage, stages_checkNodeJS.
    + intros _ w. apply advances_stage, stages_installReactNativeCLI.
Qed.

Lemma stages_conclude (this : ReactNativeInstaller) (r : run host unit) :
  stages (trace (conclude this r)) = stages (trace r).
Proof.
  destruct r as [[[]|e|c|] w1 t1]; cbn [conclude out trace];
    rewrite !stages_app; cbn; now rewrite ?app_nil_r.
Qed.

(** X3.  In every run of [execute], however it ends, the stages entered are
    the first ones of the fixed sequence: prerequisite check, runtime check,
    CLI install, then the procedure of the platform tag (none for an
    unrecognized tag).  No stage is skipped, repeated or entered out of
    order. *)
Theorem stage_order (this : ReactNativeInstaller) (w : World host) :
  exists rest,
    (stages (trace (execute host this w)) ++ rest)%list
    = ([m_checkPrerequisites; m_checkNodeJS; m_installReactNativeCLI]
         ++ procedure_of (platform this))%list.
Proof.
  rewrite execute_run, stages_conclude. apply advances_pipeline.
Qed.

(** *** Failing fast *)

Lemma loud_after_quiet (t t1 t2 rest : list event) (x : event) :
  quiet t = true -> loud x = true ->
  (t1 ++ x :: t2 = t ++ rest)%list ->
  exists pre, rest = (pre ++ x :: t2)%list.
Proof.
  revert t1. induction t as [|y t IH]; intros t1 Hq Hx H.
  - now exists t1.
  - cbn in Hq. apply andb_true_iff in Hq as [Hy Hq].
    destruct t1 as [|z t1]; cbn in H; injection H as -> H.
    + rewrite Hx in Hy. discriminate Hy.
    + now apply (IH t1).
Qed.

(** X4.  [execute] fails fast: when a command run directly by a stage
    fails, nothing follows it in the run but the "Installation failed" line
    with its message.  No later command is attempted, nothing is retried
    and nothing is undone. *)
Theorem nothing_after_direct_failure (this : ReactNativeInstaller)
    (w : World host) (t1 t2 : list event) (c : string) (e : Error) :
  trace (execute host this w) = (t1 ++ Exec c inherit (Failed e) :: t2)%list ->
  t2 = [Log (failure_line (message e))].
Proof.
  intros H.
  destruct (execute_shape this w) as (t & Hq & [[_ Ht] | [Hf | [_ Ht]]]).
  - rewrite Ht in H. symmetry in H.
    apply loud_after_quiet in H as [pre H]; [ | exact Hq | reflexivity ].
    exfalso. apply (final_output_no_command c inherit (Failed e)).
    rewrite H. apply in_elt.
  - destruct Hf as (cmd & e' & _ & Ht). rewrite Ht in H. symmetry in H.
    apply loud_after_quiet in H as [pre H]; [ | exact Hq | reflexivity ].
    destruct pre as [|p1 [|p2 [|p3 pre]]]; cbn in H.
    + now injection H as _ -> <-.
    + injection H as _ H. discriminate H.
    + injection H as _ _ H. discriminate H.
    + injection H as _ _ H. discriminate H.
  - rewrite <- (app_nil_r t) in Ht. rewrite Ht in H. symmetry in H.
    apply loud_after_quiet in H as [pre H]; [ | exact Hq | reflexivity ].
    now destruct pre.
Qed.

(** *** What the success message guarantees *)

Lemma completion_returned (this : ReactNativeInstaller) (w : World host) :
  In (Log completion_line) (trace (execute host this w)) <->
  out (execute host this w) = Returned tt.
Proof.
  split.
  - intros Hs.
    destruct (execute_shape this w) as (t & Hq & [[Ho Ht] | [H | [Ho Ht]]]).
    + exact Ho.
    + exfalso. destruct H as (cmd & e & Ho & Ht). rewrite Ht in Hs.
      apply in_app_or in Hs as [Hs | [Hs | [Hs | []]]].
      * now apply (quiet_In _ _ Hq) in Hs.
      * discriminate Hs.
      * symmetry in Hs. revert Hs.
        apply final_output_not_failure. now left.
    + exfalso. rewrite Ht in Hs. now apply (quiet_In _ _ Hq) in Hs.
  - intros Ho. rewrite execute_run in *.
    apply conclude_returned in Ho as [_ ->].
    apply in_or_app. right. now left.
Qed.

Ltac returned_paths :=
  match goal with
  | |- out ?r = _ -> _ =>
      let E := fresh "E" in
      destruct r as [?o ?w ?t] eqn:E; run_paths E
  end;
  cbn [out trace]; intros Hret; try discriminate Hret; cbv; tauto.

Lemma checkPrerequisites_returned this w :
  out (checkPrerequisites host this w) = Returned tt ->
  In (Exec "git --version" ignore Succeeded)
     (trace (checkPrerequisites host this w)).
Proof. returned_paths. Qed.

Lemma checkNodeJS_returned this w :
  out (checkNodeJS host this w) = Returned tt ->
  In (Exec "node --version" ignore Succeeded) (trace (checkNodeJS host this w))
  \/ In (Exec nvm_install inherit Succeeded) (trace (checkNodeJS host this w)).
Proof. returned_paths. Qed.

Lemma installReactNativeCLI_returned this w :
  out (installReactNativeCLI host this w) = Returned tt ->
  In (Exec "npm install -g react-native-cli" inherit Succeeded)
     (trace (installReactNativeCLI host this w)).
Proof. returned_paths. Qed.

(** X5.  [execute] prints the success message only in runs in which git
    was found, the runtime was found or its install succeeded, and the
    install of the CLI tool succeeded. *)
Theorem success_requires (this : ReactNativeInstaller) (w : World host) :
  In (Log completion_line) (trace (execute host this w)) ->
  In (Exec "git --version" ignore Succeeded) (trace (execute host this w))
  /\ (In (Exec "node --version" ignore Succeeded)
         (trace (execute host this w))
      \/ In (Exec nvm_install inherit Succeeded)
           (trace (execute host this w)))
  /\ In (Exec "npm install -g react-native-cli" inherit Succeeded)
        (trace (execute host this w)).
Proof.
  intros Hs. apply completion_returned in Hs. rewrite execute_run in *.
  apply conclude_returned in Hs as [Hp ->]. unfold pipeline in *.
  apply bind_returned in Hp as ([] & He & _ & ->). unfold earlier_stages in *.
  apply bind_returned in He as ([] & H1 & He & ->).
  apply bind_returned in He as ([] & H2 & H3 & ->).
  apply checkPrerequisites_returned in H1.
  apply checkNodeJS_returned in H2.
  apply installReactNativeCLI_returned in H3.
  rewrite !in_app_iff. tauto.
Qed.

(** *** The entry point *)


(** *** The platform procedures *)

Ltac refute_member H :=
  exfalso; cbv in H;
  repeat (destruct H as [H | H]; [discriminate H | ]);
  exact H.

Ltac bootstrap_paths probe :=
  match goal with
  | |- context [trace ?r] =>
      let Hs := fresh "Hs" in
      let E := fresh "E" in
      destruct (spawnSync host probe _) as [[|?e] ?w] eqn:Hs; cbn [fst];
      destruct r as [?o ?w ?t] eqn:E; run_paths E; cbn [trace]
  end;
  let H := fresh "H" in
  (split; [ intros H | intros [? H] ]);
  first [ discriminate H | now eexists | solve [cbv; tauto] | refute_member H ].

(** X7.  [setupMacOS] runs the Homebrew install script exactly when the
    probe of [brew] reports absent: never when Homebrew is there, always
    when it is not. *)
Theorem homebrew_bootstrap_iff_absent (this : ReactNativeInstaller)
    (w : World host) :
  In homebrew_script (commands (trace (setupMacOS host this w)))
  <-> exists e, fst (spawnSync host "brew --version" w) = Failed e.
Proof. bootstrap_paths "brew --version". Qed.

(** X8.  [setupWindows] runs the Chocolatey bootstrap exactly when the
    probe of [choco] reports absent. *)
Theorem chocolatey_bootstrap_iff_absent (this : ReactNativeInstaller)
    (w : World host) :
  In chocolatey_script (commands (trace (setupWindows host this w)))
  <-> exists e, fst (spawnSync host "choco --version" w) = Failed e.
Proof. bootstrap_paths "choco --version". Qed.


(** X10.  The commands of a run of [setupLinux], however it ends, are the
    first ones of a fixed list: the refresh of the package index, the
    install of the Java kit, the install of the device tools, the browser
    launch.  None runs before the ones listed ahead of it. *)
Theorem setupLinux_command_order (this : ReactNativeInstaller)
    (w : World host) :
  exists rest,
    (commands (trace (setupLinux host this w)) ++ rest)%list
    = (linux_installs ++ [linux_launch])%list.
Proof.
  destruct (setupLinux host this w) as [o w' t] eqn:E. run_paths E;
    cbn [trace]; eexists; cbv [commands flat_map app]; reflexivity.
Qed.

Ltac offered_paths :=
  match goal with
  | |- offered_after ?r _ =>
      let E := fresh "E" in
      destruct r as [?o ?w ?t] eqn:E; run_paths E
  end;
  let Hask := fresh "Hask" in
  let Hc := fresh "Hc" in
  let Hret := fresh "Hret" in
  (split;
   [ intros ? Hask ? Hc; find_event Hask; cbv in Hc;
     repeat (destruct Hc as [<- | Hc]; [cbv; tauto | ]); contradiction
   | cbn [out trace]; intros Hret; try discriminate Hret;
     match goal with
     | Hr : readLine host _ _ = (Some ?a, _) |- _ => exists a; cbv; tauto
     end ]).

Lemma offered_setupMacOS this w :
  offered_after (setupMacOS host this w) macos_installs.
Proof. offered_paths. Qed.

Lemma offered_setupLinux this w :
  offered_after (setupLinux host this w) linux_installs.
Proof. offered_paths. Qed.

Lemma offered_setupWindows this w :
  offered_after (setupWindows host this w) windows_installs.
Proof. offered_paths. Qed.

(** X11.  In each platform procedure the question about the IDE comes
    after the package installs: it is asked only in runs in which every
    install of the procedure has succeeded, and a procedure that returns has
    asked it and got an answer. *)
Theorem offer_after_installs (this : ReactNativeInstaller) (w : World host) :
  offered_after (setupMacOS host this w) macos_installs
  /\ offered_after (setupLinux host this w) linux_installs
  /\ offered_after (setupWindows host this w) windows_installs.
Proof.
  split; [apply offered_setupMacOS | ].
  split; [apply offered_setupLinux | apply offered_setupWindows].
Qed.

(** X12.  [installReactNativeCLI] checks nothing first: on every machine it
    invokes the global install of the CLI tool, once, and nothing else; it
    returns, and prints its success line, exactly when that command
    succeeds, and raises the command's error otherwise. *)
Theorem installReactNativeCLI_unconditional (this : ReactNativeInstaller)
    (w : World host) :
  let npm := spawnSync host "npm install -g react-native-cli" w in
  commands (trace (installReactNativeCLI host this w))
  = ["npm install -g react-native-cli"]
  /\ out (installReactNativeCLI host this w)
     = match fst npm with
       | Succeeded => Returned tt
       | Failed e => Thrown e
       end
  /\ (In (Log (success_line "React Native CLI installed successfully."))
         (trace (installReactNativeCLI host this w))
      <-> fst npm = Succeeded).
Proof.
  cbv zeta.
  destruct (spawnSync host "npm install -g react-native-cli" w)
    as [[|e] w0] eqn:Hs; cbn [fst];
    destruct (installReactNativeCLI host this w) as [o w' t] eqn:E;
    run_paths E; cbn [out trace].
  - repeat split; try reflexivity. intros _. cbv. tauto.
  - repeat split; try reflexivity; intros H; [ | discriminate H ].
    exfalso. cbv in H. find_event H.
Qed.

(** *** The console helpers *)

(** X13.  The four console helpers print one line each, tagged by
    category; whatever the messages, lines of different categories differ,
    and a line determines its message. *)
Theorem console_categories (a b : string) (w : World host) :
  (trace (printStep host a w) = [Log (step_line a)]
   /\ trace (printSuccess host a w) = [Log (success_line a)]
   /\ trace (printError host a w) = [Log (error_line a)]
   /\ trace (printWarning host a w) = [Log (warning_line a)])
  /\ (step_line a <> success_line b /\ step_line a <> error_line b
      /\ step_line a <> warning_line b /\ success_line a <> error_line b
      /\ success_line a <> warning_line b /\ error_line a <> warning_line b)
  /\ ((step_line a = step_line b -> a = b)
      /\ (success_line a = success_line b -> a = b)
      /\ (error_line a = error_line b -> a = b)
      /\ (warning_line a = warning_line b -> a = b)).
Proof.
  split; [repeat split | ].
  split; repeat split; try (cbv; discriminate).
  all: intros H; cbv in H; now injection H.
Qed.

(** *** Unrecognized platforms *)

(** X14.  On a platform tag that is not recognized, a run of [execute],
    however it ends, invokes nothing but the probes of git and node, the
    version-manager bootstrap, the runtime install and the CLI install, and
    it never asks a question: no package manager is touched. *)
Theorem unrecognized_platform_commands (this : ReactNativeInstaller)
    (w : World host) :
  ~ In (platform this) (map fst recognized) ->
  incl (commands (trace (execute host this w)))
    ["git --version"; "node --version"; nvm_bootstrap; nvm_install;
     "npm install -g react-native-cli"]
  /\ (forall query answer,
        ~ In (Ask query answer) (trace (execute host this w))).
Proof.
  destruct this as [p]. cbn [platform]. intros Hun.
  assert (Hne : forall tag, In tag (map fst recognized) -> (p =? tag) = false).
  { intros tag Htag. apply String.eqb_neq. congruence. }
  pose proof (Hne "darwin" (or_introl eq_refl)) as Hd.
  pose proof (Hne "linux" (or_intror (or_introl eq_refl))) as Hl.
  pose proof (Hne "win32" (or_intror (or_intror (or_introl eq_refl)))) as Hw.
  clear Hun Hne.
  destruct (execute host (mkInstaller p) w) as [o w' t] eqn:E.
  run_paths E; cbn [trace]; split.
  all: first
         [ intros c Hc; cbv in Hc |- *; tauto
         | intros query answer Hask; find_event Hask ].
Qed.

End Verification.

(** ** Concrete runs *)

(** A full run on Linux with everything in place and the answer "y". *)
Example linux_run_commands :
  commands (trace (execute (well_equipped (Some "y")) (mkInstaller "linux") tt))
  = ["git --version"; "node --version"; "npm install -g react-native-cli";
     "sudo apt-get update"; "sudo apt-get install -y openjdk-11-jdk";
     "sudo apt-get install -y android-tools-adb android-tools-fastboot";
     "xdg-open https://developer.android.com/studio"].
Proof. reflexivity. Qed.

(** A run on a Mac without Homebrew: the script installs it and goes on. *)
Example mac_run_commands :
  commands (trace (execute mac (mkInstaller "darwin") false))
  = ["git --version"; "node --version"; "npm install -g react-native-cli";
     "brew --version"; homebrew_script; "brew install watchman";
     "xcode-select --version";
     "brew install adoptopenjdk/openjdk/adoptopenjdk11"]
  /\ world (execute mac (mkInstaller "darwin") false) = true.
Proof. split; reflexivity. Qed.

(** C3, as stated, fails: on a Mac without Homebrew the probe of [brew]
    raises, yet the run returns and prints the success message and the next
    steps, and no "Installation failed" line. *)
Lemma probe_failure_not_reported :
  In (Exec "brew --version" ignore (Failed (failed "brew --version")))
     (trace (execute mac (mkInstaller "darwin") false))
  /\ out (execute mac (mkInstaller "darwin") false) = Returned tt
  /\ In (Log completion_line)
        (trace (execute mac (mkInstaller "darwin") false))
  /\ incl next_steps_output
        (trace (execute mac (mkInstaller "darwin") false))
  /\ (forall msg,
        ~ In (Log (failure_line msg))
             (trace (execute mac (mkInstaller "darwin") false))).
Proof.
  repeat split.
  - cbv. tauto.
  - cbv. tauto.
  - intros ev Hev. cbv in Hev |- *. tauto.
  - intros msg Hin. cbv in Hin. find_event Hin.
Qed.

(** C9, as stated, fails: on Linux without node, when the bootstrap command
    raises, [checkNodeJS] raises that error and the runtime install is never
    invoked. *)
Lemma bootstrap_failure_skips_install :
  platform (mkInstaller "linux") <> "win32"
  /\ fst (spawnSync offline_without_node "node --version" tt)
     = Failed (failed "node --version")
  /\ commands (trace (checkNodeJS offline_without_node (mkInstaller "linux") tt))
     = ["node --version"; nvm_bootstrap]
  /\ ~ In nvm_install
         (commands
            (trace (checkNodeJS offline_without_node (mkInstaller "linux") tt)))
  /\ out (checkNodeJS offline_without_node (mkInstaller "linux") tt)
     = Thrown (failed nvm_bootstrap).
Proof.
  repeat split; try reflexivity.
  - discriminate.
  - cbv. intros [H | [H | []]]; discriminate H.
Qed.

(** ** The theorems at concrete machines

    Each lemma below instantiates one theorem at an example host and a
    platform tag, shows that its hypotheses hold there, and reads off part of
    its conclusion. *)

Lemma unrecognized_platform_completes_witness :
  (~ In (platform (mkInstaller "freebsd")) (map fst recognized)
   /\ out (earlier_stages (well_equipped None) (mkInstaller "freebsd") tt)
      = Returned tt)
  /\ out (execute (well_equipped None) (mkInstaller "freebsd") tt)
     = Returned tt
  /\ platform_setups
       (trace (execute (well_equipped None) (mkInstaller "freebsd") tt)) = [].
Proof.
  assert (H1 : ~ In (platform (mkInstaller "freebsd")) (map fst recognized)).
  { cbv. intros [H | [H | [H | []]]]; discriminate H. }
  assert (H2 : out (earlier_stages (well_equipped None)
                      (mkInstaller "freebsd") tt) = Returned tt)
    by reflexivity.
  split; [split; assumption | ].
  destruct (unrecognized_platform_completes (well_equipped None)
              (mkInstaller "freebsd") tt H1 H2) as (Ho & _ & Hn).
  split; assumption.
Defined.

Lemma git_absent_hard_exit_witness :
  fst (spawnSync without_git "git --version" tt)
  = Failed (failed "git --version")
  /\ out (execute without_git (mkInstaller "linux") tt) = Exited 1
  /\ stages (trace (execute without_git (mkInstaller "linux") tt))
     = [m_checkPrerequisites]
  /\ commands (trace (execute without_git (mkInstaller "linux") tt))
     = ["git --version"].
Proof.
  assert (H : fst (spawnSync without_git "git --version" tt)
              = Failed (failed "git --version")) by reflexivity.
  split; [exact H | ].
  destruct (git_absent_hard_exit without_git (mkInstaller "linux") tt _ H)
    as (Ho & _ & Hs & Hc).
  repeat split; assumption.
Defined.

Lemma direct_failure_reported_witness :
  In (Exec "npm install -g react-native-cli" inherit
        (Failed (failed "npm install -g react-native-cli")))
     (trace (execute npm_failing (mkInstaller "darwin") tt))
  /\ out (execute npm_failing (mkInstaller "darwin") tt) = Exited 1
  /\ ~ In (Log completion_line)
         (trace (execute npm_failing (mkInstaller "darwin") tt)).
Proof.
  assert (H : In (Exec "npm install -g react-native-cli" inherit
                    (Failed (failed "npm install -g react-native-cli")))
                 (trace (execute npm_failing (mkInstaller "darwin") tt))).
  { cbv. tauto. }
  split; [exact H | ].
  destruct (direct_failure_reported npm_failing (mkInstaller "darwin") tt _ _ H)
    as (Ho & _ & Hn).
  split; [exact Ho | ]. apply Hn. now left.
Defined.

Lemma windows_node_absent_hard_exit_witness :
  (platform (mkInstaller "win32") = "win32"
   /\ In (Exec "node --version" ignore (Failed (failed "node --version")))
         (trace (execute without_node (mkInstaller "win32") tt)))
  /\ out (execute without_node (mkInstaller "win32") tt) = Exited 1
  /\ commands (trace (execute without_node (mkInstaller "win32") tt))
     = ["git --version"; "node --version"].
Proof.
  assert (H : In (Exec "node --version" ignore
                    (Failed (failed "node --version")))
                 (trace (execute without_node (mkInstaller "win32") tt))).
  { cbv. tauto. }
  split; [split; [reflexivity | exact H] | ].
  destruct (windows_node_absent_hard_exit without_node (mkInstaller "win32")
              tt _ eq_refl H) as (Ho & _ & Hc).
  split; assumption.
Defined.

Lemma studio_launch_iff_yes_witness :
  In (Ask studio_query (Some "Y"))
     (trace (setupLinux (well_equipped (Some "Y")) (mkInstaller "linux") tt))
  /\ (In "xdg-open https://developer.android.com/studio"
         (commands
            (trace (setupLinux (well_equipped (Some "Y"))
                      (mkInstaller "linux") tt)))
      <-> toLowerCase "Y" = "y").
Proof.
  assert (H : In (Ask studio_query (Some "Y"))
                 (trace (setupLinux (well_equipped (Some "Y"))
                           (mkInstaller "linux") tt))).
  { cbv. tauto. }
  split; [exact H | ].
  destruct (studio_launch_iff_yes (well_equipped (Some "Y"))
              (mkInstaller "linux") tt) as (_ & Hl & _).
  exact (proj1 (Hl "Y" H)).
Defined.

Lemma node_present_no_install_witness :
  fst (spawnSync (well_equipped None) "node --version" tt) = Succeeded
  /\ out (checkNodeJS (well_equipped None) (mkInstaller "linux") tt)
     = Returned tt
  /\ commands (trace (checkNodeJS (well_equipped None) (mkInstaller "linux") tt))
     = ["node --version"].
Proof.
  split; [reflexivity | ].
  destruct (node_present_no_install (well_equipped None) (mkInstaller "linux")
              tt eq_refl) as (Ho & _ & Hc & _).
  split; assumption.
Defined.

Lemma recognized_platform_stage_sequence_witness :
  (In (platform (mkInstaller "linux"), m_setupLinux) recognized
   /\ out (execute (well_equipped (Some "n")) (mkInstaller "linux") tt)
      = Returned tt)
  /\ exists pre,
       trace (execute (well_equipped (Some "n")) (mkInstaller "linux") tt)
       = (pre ++ Log completion_line :: next_steps_output)%list
       /\ stages pre
          = [m_checkPrerequisites; m_checkNodeJS; m_installReactNativeCLI;
             m_setupLinux].
Proof.
  assert (H1 : In (platform (mkInstaller "linux"), m_setupLinux) recognized)
    by (right; left; reflexivity).
  assert (H2 : out (execute (well_equipped (Some "n")) (mkInstaller "linux") tt)
               = Returned tt) by reflexivity.
  split; [split; assumption | ].
  destruct (recognized_platform_stage_sequence (well_equipped (Some "n"))
              (mkInstaller "linux") tt m_setupLinux H1 H2)
    as (pre & Ht & Hs & _).
  exists pre. split; assumption.
Defined.

Lemma runtime_bootstrap_off_windows_witness :
  (platform (mkInstaller "freebsd") <> "win32"
   /\ fst (spawnSync without_node "node --version" tt)
      = Failed (failed "node --version"))
  /\ commands (trace (checkNodeJS without_node (mkInstaller "freebsd") tt))
     = ["node --version"; nvm_bootstrap; nvm_install].
Proof.
  assert (H1 : platform (mkInstaller "freebsd") <> "win32") by discriminate.
  assert (H2 : fst (spawnSync without_node "node --version" tt)
               = Failed (failed "node --version")) by reflexivity.
  split; [split; assumption | ].
  destruct (runtime_bootstrap_off_windows without_node (mkInstaller "freebsd")
              tt _ H1 H2) as (_ & Hc & _).
  exact Hc.
Defined.

Lemma success_excludes_failure_witness :
  ~ (In (Log completion_line)
        (trace (execute npm_failing (mkInstaller "linux") tt))
     /\ exists msg,
          In (Log (failure_line msg))
             (trace (execute npm_failing (mkInstaller "linux") tt))).
Proof.
  exact (success_excludes_failure npm_failing (mkInstaller "linux") tt).
Defined.

(** ** Further theorems at concrete machines *)

Lemma execute_exit_code_witness :
  out (execute without_git (mkInstaller "linux") tt) = Exited 1%Z
  /\ forall e, out (execute without_git (mkInstaller "linux") tt) <> Thrown e.
Proof.
  destruct (execute_exit_code without_git (mkInstaller "linux") tt)
    as [Hthrown Hexit].
  assert (H : out (execute without_git (mkInstaller "linux") tt) = Exited 1%Z)
    by reflexivity.
  pose proof (Hexit 1%Z H) as Hone.
  split; [exact H | exact Hthrown].
Defined.


Lemma nothing_after_direct_failure_witness :
  trace (execute npm_failing (mkInstaller "darwin") tt)
  = (firstn 16 (trace (execute npm_failing (mkInstaller "darwin") tt))
       ++ Exec "npm install -g react-native-cli" inherit
            (Failed (failed "npm install -g react-native-cli"))
       :: skipn 17 (trace (execute npm_failing (mkInstaller "darwin") tt)))%list
  /\ skipn 17 (trace (execute npm_failing (mkInstaller "darwin") tt))
     = [Log (failure_line "Command failed: npm install -g react-native-cli")].
Proof.
  assert (H : trace (execute npm_failing (mkInstaller "darwin") tt)
              = (firstn 16 (trace (execute npm_failing (mkInstaller "darwin") tt))
                   ++ Exec "npm install -g react-native-cli" inherit
                        (Failed (failed "npm install -g react-native-cli"))
                   :: skipn 17
                        (trace (execute npm_failing (mkInstaller "darwin") tt)))%list)
    by reflexivity.
  split; [exact H | ].
  exact (nothing_after_direct_failure npm_failing (mkInstaller "darwin") tt
           _ _ _ _ H).
Defined.

Lemma success_requires_witness :
  In (Log completion_line)
     (trace (execute (well_equipped (Some "n")) (mkInstaller "linux") tt))
  /\ In (Exec "npm install -g react-native-cli" inherit Succeeded)
        (trace (execute (well_equipped (Some "n")) (mkInstaller "linux") tt)).
Proof.
  assert (H : In (Log completion_line)
                 (trace (execute (well_equipped (Some "n"))
                           (mkInstaller "linux") tt))).
  { cbv. tauto. }
  split; [exact H | ].
  exact (proj2 (proj2 (success_requires (well_equipped (Some "n"))
                         (mkInstaller "linux") tt H))).
Defined.


Lemma homebrew_bootstrap_iff_absent_witness :
  fst (spawnSync mac "brew --version" false) = Failed (failed "brew --version")
  /\ In homebrew_script
        (commands (trace (setupMacOS mac (mkInstaller "darwin") false))).
Proof.
  assert (H : fst (spawnSync mac "brew --version" false)
              = Failed (failed "brew --version")) by reflexivity.
  split; [exact H | ].
  apply (homebrew_bootstrap_iff_absent mac (mkInstaller "darwin") false).
  now exists (failed "brew --version").
Defined.

Lemma chocolatey_bootstrap_iff_absent_witness :
  fst (spawnSync without_choco "choco --version" tt)
  = Failed (failed "choco --version")
  /\ In chocolatey_script
        (commands (trace (setupWindows without_choco (mkInstaller "win32") tt))).
Proof.
  assert (H : fst (spawnSync without_choco "choco --version" tt)
              = Failed (failed "choco --version")) by reflexivity.
  split; [exact H | ].
  apply (chocolatey_bootstrap_iff_absent without_choco (mkInstaller "win32") tt).
  now exists (failed "choco --version").
Defined.


Lemma offer_after_installs_witness :
  out (setupLinux (well_equipped (Some "n")) (mkInstaller "linux") tt)
  = Returned tt
  /\ exists answer,
       In (Ask studio_query (Some answer))
          (trace (setupLinux (well_equipped (Some "n")) (mkInstaller "linux") tt))
       /\ In (Exec "sudo apt-get install -y openjdk-11-jdk" inherit Succeeded)
             (trace (setupLinux (well_equipped (Some "n"))
                       (mkInstaller "linux") tt)).
Proof.
  assert (H : out (setupLinux (well_equipped (Some "n")) (mkInstaller "linux") tt)
              = Returned tt) by reflexivity.
  split; [exact H | ].
  destruct (offer_after_installs (well_equipped (Some "n"))
              (mkInstaller "linux") tt) as (_ & [Hinst Hask] & _).
  destruct (Hask H) as [answer Ha].
  exists answer. split; [exact Ha | ].
  apply (Hinst _ Ha). right. now left.
Defined.

Lemma installReactNativeCLI_unconditional_witness :
  fst (spawnSync (well_equipped None) "npm install -g react-native-cli" tt)
  = Succeeded
  /\ In (Log (success_line "React Native CLI installed successfully."))
        (trace (installReactNativeCLI (well_equipped None)
                  (mkInstaller "linux") tt)).
Proof.
  split; [reflexivity | ].
  destruct (installReactNativeCLI_unconditional (well_equipped None)
              (mkInstaller "linux") tt) as (_ & _ & Hline).
  now apply Hline.
Defined.

Lemma console_categories_witness :
  step_line "Installing watchman..." = step_line "Installing watchman..."
  /\ step_line "Installing watchman..."
     <> warning_line "Installing watchman...".
Proof.
  split; [reflexivity | ].
  destruct (console_categories (well_equipped None) "Installing watchman..."
              "Installing watchman..." tt) as (_ & Hdiff & _).
  exact (proj1 (proj2 (proj2 Hdiff))).
Defined.

Lemma unrecognized_platform_commands_witness :
  ~ In (platform (mkInstaller "freebsd")) (map fst recognized)
  /\ incl (commands (trace (execute without_node (mkInstaller "freebsd") tt)))
       ["git --version"; "node --version"; nvm_bootstrap; nvm_install;
        "npm install -g react-native-cli"].
Proof.
  assert (H : ~ In (platform (mkInstaller "freebsd")) (map fst recognized)).
  { cbv. intros [H | [H | [H | []]]]; discriminate H. }
  split; [exact H | ].
  exact (proj1 (unrecognized_platform_commands without_node
                  (mkInstaller "freebsd") tt H)).
Defined.
